(** * ChainTrack AI, ml_service: the scoring service

    A shallow embedding of [ml_service/main.py] (the feature vectoriser, the
    three scoring branches of [anomaly], the start-up loading of [MODEL], the
    endpoints [root] and [predict_fee]) and of the artifact that
    [ml_service/train.py] writes.

    Numbers.  A Python float is embedded as the exact rational it denotes
    ([Q], compared with [==]) and arithmetic on floats is exact: the
    embedding follows the code as long as the binary64 computation stays
    finite, up to the rounding of each operation.  NaN and the infinities
    have no counterpart.  The conversion [float(v)] of an integer is the
    binary64 one, rounding included.  [round(x, n)] is decimal rounding,
    ties to even.

    Randomness.  [random.random()] and [random.uniform(-2, 2)] are read from
    an explicit argument.

    Exceptions.  A call that can raise returns [option], [None] standing for
    the exception; [anomaly] returns [None] when an exception escapes it.

    Artifacts.  A loaded dict is read through six keys; it is embedded as a
    record of optional entries, each of the type the service expects under
    that key.  A loaded object that is not a dict is a scalar, a text or a
    list. *)

From Stdlib Require Import QArith Qabs Qround Lqa ZArith Lia List String Bool.
Import ListNotations.

Local Open Scope string_scope.
Local Open Scope list_scope.
Local Open Scope Q_scope.

(** ** Comparisons on floats *)

Definition Qlt_bool (x y : Q) : bool := negb (Qle_bool y x).

(** ** Python builtins *)

Module py.

(** An [int] or a [float]. *)
Inductive number :=
| Int (z : Z)
| Float (q : Q).

(** The binary64 value nearest to the natural number [a], ties to even:
    [a] itself up to 53 bits, otherwise its 53 leading bits rounded. *)
Definition nearest_binary64 (a : Z) : Z :=
  let e := (Z.log2 a - 52)%Z in
  if (e <=? 0)%Z then a
  else
    let q := Z.shiftr a e in
    let r := (a - Z.shiftl q e)%Z in
    let half := Z.shiftl 1 (e - 1) in
    let q' :=
      if (r <? half)%Z then q
      else if (half <? r)%Z then (q + 1)%Z
           else if Z.even q then q else (q + 1)%Z in
    Z.shiftl q' e.

(** [float(z)] on an int: [None] is the [OverflowError] raised when the
    nearest binary64 value is not finite. *)
Definition float_of_int (z : Z) : option Q :=
  let m := nearest_binary64 (Z.abs z) in
  if (2 ^ 1024 <=? m)%Z then None else Some (inject_Z (Z.sgn z * m)).

(** [float(v)] *)
Definition float (v : number) : option Q :=
  match v with
  | Int z => float_of_int z
  | Float q => Some q
  end.

(** [abs(x)] *)
Definition abs (x : Q) : Q := Qabs x.

(** [max(a, b)]: the first of the largest arguments. *)
Definition max (a b : Q) : Q := if Qlt_bool a b then b else a.

(** The integer nearest to [q], a tie going to the even neighbour. *)
Definition round_half_even (q : Q) : Z :=
  let n := Qfloor q in
  match Qcompare (q - inject_Z n) (1 # 2) with
  | Lt => n
  | Gt => (n + 1)%Z
  | Eq => if Z.even n then n else (n + 1)%Z
  end.

(** [round(x, ndigits)] *)
Definition round (x : Q) (ndigits : nat) : Q :=
  let p := (10 ^ Z.of_nat ndigits)%Z in
  round_half_even (x * inject_Z p) # Z.to_pos p.

(** [d.get(k, default)] on an optional entry. *)
Definition get {A : Type} (entry : option A) (default : A) : A :=
  match entry with
  | Some v => v
  | None => default
  end.

End py.

(** ** The numpy operations the service calls, on one-dimensional arrays *)

Module np.

Definition maximum (a b : Q) : Q := if Qlt_bool a b then b else a.
Definition minimum (a b : Q) : Q := if Qlt_bool b a then b else a.

(** [np.clip(a, a_min, a_max)] *)
Definition clip (a a_min a_max : Q) : Q := minimum (maximum a a_min) a_max.

(** [np.pad(a, (0, n), 'constant')] *)
Definition pad (a : list Q) (n : nat) : list Q := a ++ repeat 0 n.

(** [a[:n]] *)
Definition take (a : list Q) (n : nat) : list Q := firstn n a.

Fixpoint inner (a b : list Q) : Q :=
  match a, b with
  | u :: a', v :: b' => u * v + inner a' b'
  | _, _ => 0
  end.

(** [np.dot(a, b)]: raises [ValueError] when the shapes differ. *)
Definition dot (a b : list Q) : option Q :=
  if Nat.eqb (List.length a) (List.length b) then Some (inner a b) else None.

End np.

(** ** Request and response *)

Record TxFeatures := {
  txHash : option string;
  from_addr : option string;
  to : option string;
  valueUSD : option Q;
  relativeValue : option Q;
  timeDelta : option Q;
  txCount24h : option Z;
  gasUsed : option Q;
  gasPriceGwei : option Q;
  isNewCounterparty : option Z
}.

(** A JSON value of a response object. *)
Inductive json :=
| Number (q : Q)
| Str (s : string)
| Bool (b : bool).

(** A response object, in the order its keys are written. *)
Definition Response := list (string * json).

Fixpoint lookup {A : Type} (k : string) (d : list (string * A)) : option A :=
  match d with
  | [] => None
  | (k', v) :: d' => if String.eqb k' k then Some v else lookup k d'
  end.

Definition keys {A : Type} (d : list (string * A)) : list string := map fst d.

(** ** The model artifact *)

(** A fitted estimator: [decision_function(X)[0]], [None] when the call
    raises. *)
Record Estimator := {
  decision_function : list Q -> option Q
}.

(** The object under the key [pipeline], seen through the three attributes
    the service reads.  [named_steps] is [None] for an object without that
    attribute, such as a bare estimator. *)
Record Pipeline := {
  named_steps : option (list (string * Estimator));
  transform : list Q -> option (list Q);
  pipeline_decision_function : list Q -> option Q
}.

(** A loaded dict, seen through the six keys the service reads; a key that
    is absent is [None]. *)
Record Model := {
  pipeline : option Pipeline;
  score_min : option Q;
  score_max : option Q;
  type : option string;
  coefs : option (list Q);
  intercept : option Q
}.

(** What [joblib.load] or [json.load] returns, when it is not [None]. *)
Inductive Object :=
| Dict (m : Model)
| Scalar
| Text (s : string)
| Array (strings : list string).

Coercion Dict : Model >-> Object.

(** ** Start-up: loading [MODEL] (main.py, lines 11-31) *)

(** An artifact file: absent, failing to load, loading as [None] (a JSON
    [null], a pickled [None]), or loading as an object. *)
Inductive File :=
| Missing
| Unreadable
| HoldsNone
| Holds (o : Object).

Definition load_MODEL (pkl precomputed : File) : option Object :=
  let MODEL :=
    match pkl with
    | Holds o => Some o
    | HoldsNone => None
    | Unreadable => None
    | Missing => None
    end in
  match MODEL with
  | None =>
      match precomputed with
      | Holds o => Some o
      | HoldsNone => None
      | Unreadable => None
      | Missing => None
      end
  | Some o => Some o
  end.

(** ** The vectoriser (main.py, lines 53-60) *)

Definition feature_order : list string :=
  ["valueUSD"; "relativeValue"; "timeDelta"; "txCount24h"; "gasUsed";
   "gasPriceGwei"; "isNewCounterparty"].

(** [features.dict()], restricted to its numeric entries: the three text
    entries are never looked up. *)
Definition dict (features : TxFeatures) : list (string * option py.number) :=
  [("valueUSD", option_map py.Float (valueUSD features));
   ("relativeValue", option_map py.Float (relativeValue features));
   ("timeDelta", option_map py.Float (timeDelta features));
   ("txCount24h", option_map py.Int (txCount24h features));
   ("gasUsed", option_map py.Float (gasUsed features));
   ("gasPriceGwei", option_map py.Float (gasPriceGwei features));
   ("isNewCounterparty", option_map py.Int (isNewCounterparty features))].

(** [f.get(k)]: [None] for a key that is absent or holds [None]. *)
Definition f_get (f : list (string * option py.number)) (k : string)
  : option py.number :=
  match lookup k f with
  | Some v => v
  | None => None
  end.

(** Line 59: [0.0 if v is None else float(v)]. *)
Definition filled (v : option py.number) : option Q :=
  match v with
  | None => Some 0
  | Some v => py.float v
  end.

(** Lines 55-59: the loop over [feature_order]; [None] when a conversion
    raises. *)
Fixpoint append_all (f : list (string * option py.number)) (ks : list string)
  : option (list Q) :=
  match ks with
  | [] => Some []
  | k :: ks' =>
      match filled (f_get f k) with
      | None => None
      | Some x =>
          match append_all f ks' with
          | None => None
          | Some x' => Some (x :: x')
          end
      end
  end.

Definition feature_vector (features : TxFeatures) : option (list Q) :=
  let f := dict features in
  append_all f feature_order.

(** ** Reading the loaded object *)

Definition present {A : Type} (entry : option A) : bool :=
  match entry with
  | Some _ => true
  | None => false
  end.

(** [MODEL[key]], and the entry behind [MODEL.get(key, default)]: [None]
    when [MODEL] is not a dict or the key is absent. *)
Definition item {A : Type} (MODEL : option Object) (key : Model -> option A)
  : option A :=
  match MODEL with
  | Some (Dict m) => key m
  | _ => None
  end.

Definition is_substring (k s : string) : bool := present (String.index 0 k s).

(** [name in MODEL], where [key] reads the entry called [name]: a key of a
    dict, a substring of a text, an element of a list. *)
Definition contains {A : Type} (MODEL : option Object)
  (key : Model -> option A) (name : string) : bool :=
  match MODEL with
  | Some (Dict m) => present (key m)
  | Some (Text s) => is_substring name s
  | Some (Array strings) => existsb (String.eqb name) strings
  | Some Scalar => false
  | None => false
  end.

(** [name in MODEL] raises [TypeError] on a number or a boolean. *)
Definition not_iterable (MODEL : option Object) : bool :=
  match MODEL with
  | Some Scalar => true
  | _ => false
  end.

(** Line 62: [MODEL is not None and 'pipeline' in MODEL and 'score_min' in
    MODEL and 'score_max' in MODEL], when it does not raise. *)
Definition applies_learned (MODEL : option Object) : bool :=
  present MODEL && contains MODEL pipeline "pipeline"
  && contains MODEL score_min "score_min"
  && contains MODEL score_max "score_max".

(** Line 91: [MODEL is not None and isinstance(MODEL, dict) and
    MODEL.get('type') == 'linear']. *)
Definition applies_linear (MODEL : option Object) : bool :=
  present MODEL &&
  match item MODEL type with
  | Some t => String.eqb t "linear"
  | None => false
  end.

(** ** The learned pipeline branch (main.py, lines 63-88) *)

(** Line 64: [clf]; [None] is the [AttributeError] of an object without
    [named_steps]. *)
Definition classifier (pipeline : Pipeline) : option (list Q -> option Q) :=
  match named_steps pipeline with
  | None => None
  | Some steps =>
      Some match lookup "iforest" steps with
           | Some step => decision_function step
           | None => pipeline_decision_function pipeline
           end
  end.

(** Lines 64-74: the anomaly magnitude; [None] when line 64 or
    [decision_function] raises. *)
Definition magnitude (pipeline : Pipeline) (X : list Q) : option Q :=
  match classifier pipeline with
  | None => None
  | Some clf =>
      let X_proc :=
        match transform pipeline X with
        | Some X' => X'
        | None => X
        end in
      match clf X_proc with
      | Some d => Some (- d)
      | None => None
      end
  end.

(** Lines 63-85: [score] before the final clip; [None] when line 63 or
    line 64 raises. *)
Definition learned_normalized (MODEL : option Object) (rnd : Q) (X : list Q)
  : option Q :=
  match item MODEL pipeline with
  | None => None
  | Some pipeline =>
      match classifier pipeline with
      | None => None
      | Some _ =>
          let raw :=
            match magnitude pipeline X with
            | Some r => r
            | None => rnd
            end in
          let smin := py.get (item MODEL score_min) 0 in
          let smax := py.get (item MODEL score_max) 1 in
          if Qlt_bool 0 (smax - smin)
          then Some ((raw - smin) / (smax - smin))
          else Some (np.clip raw 0 1)
      end
  end.

Definition learned_branch (MODEL : option Object) (rnd : Q) (X : list Q)
  : option Response :=
  match learned_normalized MODEL rnd X with
  | None => None
  | Some score =>
      let score := np.clip score 0 1 in
      let label := if Qlt_bool (85 # 100) score then "suspicious" else "normal" in
      Some [("score", Number (py.round score 4)); ("label", Str label)]
  end.

(** ** The precomputed linear branch (main.py, lines 92-110) *)

(** Lines 95-100: pad or trim the coefficients to the length of [arr]. *)
Definition align (coefs arr : list Q) : list Q :=
  let coef_arr := coefs in
  if (List.length coef_arr <? List.length arr)%nat
  then np.pad coef_arr (List.length arr - List.length coef_arr)
  else if (List.length arr <? List.length coef_arr)%nat
       then np.take coef_arr (List.length arr)
       else coef_arr.

(** Lines 92-101. *)
Definition linear_raw (MODEL : option Object) (X : list Q) : option Q :=
  let coefs := py.get (item MODEL coefs) [] in
  let intercept := py.get (item MODEL intercept) 0 in
  let arr := X in
  let coef_arr := align coefs arr in
  match np.dot arr coef_arr with
  | Some d => Some (d + intercept)
  | None => None
  end.

(** Lines 92-107: [score] before the final clip. *)
Definition linear_normalized (MODEL : option Object) (X : list Q) : option Q :=
  match linear_raw MODEL X with
  | None => None
  | Some raw =>
      let smin := py.get (item MODEL score_min) 0 in
      let smax := py.get (item MODEL score_max) (py.max 1 raw) in
      if Qlt_bool 0 (smax - smin)
      then Some ((raw - smin) / (smax - smin))
      else Some (np.clip raw 0 1)
  end.

Definition linear_branch (MODEL : option Object) (X : list Q) : option Response :=
  match linear_normalized MODEL X with
  | None => None
  | Some score =>
      let score := np.clip score 0 1 in
      let label := if Qlt_bool (85 # 100) score then "suspicious" else "normal" in
      Some [("score", Number (py.round score 4)); ("label", Str label);
            ("model", Str "precomputed_linear")]
  end.

(** ** The heuristic branch (main.py, lines 115-134) *)

Definition medians : list Q := [200; 1; 3600; 2; 50000; 30; 1 # 10].
Definition stds : list Q := [500; 2; 3600; 2; 20000; 10; 3 # 10].
Definition weights : list Q := [1; 1; 5 # 10; 3 # 10; 5 # 10; 5 # 10; 8 # 10].

(** [zip(a, b, c, d)]: as long as the shortest argument. *)
Fixpoint zip (a b c d : list Q) : list (Q * Q * Q * Q) :=
  match a, b, c, d with
  | xi :: a', m :: b', s :: c', w :: d' => (xi, m, s, w) :: zip a' b' c' d'
  | _, _, _, _ => []
  end.

(** Lines 120-128: the loop, returning [(zsum, norm)]. *)
Definition heuristic_sums (Xv : list Q) : Q * Q :=
  fold_left
    (fun (acc : Q * Q) (t : Q * Q * Q * Q) =>
       let '(zsum, norm) := acc in
       let '(xi, m, s, w) := t in
       let z := if Qle_bool s 0 then 0 else py.abs ((xi - m) / s) in
       (zsum + z * w, norm + 3 * w))
    (zip Xv medians stds weights) (0, 0).

(** Lines 129-132. *)
Definition heuristic_score (Xv : list Q) : Q :=
  let '(zsum, norm) := heuristic_sums Xv in
  if Qle_bool norm 0 then 0 else np.clip (zsum / norm) 0 1.

Definition heuristic_branch (X : list Q) : option Response :=
  let Xv := X in
  let score := heuristic_score Xv in
  let label := if Qlt_bool (85 # 100) score then "suspicious" else "normal" in
  Some [("score", Number (py.round score 4)); ("label", Str label);
        ("fallback", Bool true)].

(** ** The endpoints *)

(** [POST /ml/anomaly]: [None] when line 59, line 62, line 63 or line 64
    raises. *)
Definition anomaly (MODEL : option Object) (rnd : Q) (features : TxFeatures)
  : option Response :=
  match feature_vector features with
  | None => None
  | Some X =>
      if not_iterable MODEL then None
      else if applies_learned MODEL then learned_branch MODEL rnd X
      else if applies_linear MODEL then linear_branch MODEL X
      else heuristic_branch X
  end.

(** [GET /] *)
Definition root (MODEL : option Object) : Response :=
  [("status", Str "ml_service prototype running");
   ("model_loaded", Bool (present MODEL))].

(** ** The fee endpoint (main.py, lines 137-148) *)





(** ** Training (train.py, lines 62-71) *)

(** [a.min()] and [a.max()]: [None] (a [ValueError]) on an empty array. *)
Definition array_min (a : list Q) : option Q :=
  match a with
  | [] => None
  | x :: a' => Some (fold_left np.minimum a' x)
  end.

Definition array_max (a : list Q) : option Q :=
  match a with
  | [] => None
  | x :: a' => Some (fold_left np.maximum a' x)
  end.

(** [model_obj] of [train_and_save].  Fitting the pipeline and scoring the
    training rows are scikit-learn's; their results, the fitted [pipeline]
    and the array [scores] of anomaly magnitudes, are arguments. *)
Definition model_obj (pipeline : Pipeline) (scores : list Q) : option Model :=
  match array_min scores, array_max scores with
  | Some smin, Some smax =>
      Some {| pipeline := Some pipeline;
              score_min := Some smin;
              score_max := Some smax;
              type := None; coefs := None; intercept := None |}
  | _, _ => None
  end.

(** ** Vocabulary of the specification *)

Inductive Strategy :=
| LearnedPipelineStrategy
| LinearModelStrategy
| HeuristicStrategy
| NoStrategy.

(** The branch of [anomaly] that lines 62 and 91 select; [NoStrategy] when
    line 62 raises. *)
Definition serving (MODEL : option Object) : Strategy :=
  if not_iterable MODEL then NoStrategy
  else if applies_learned MODEL then LearnedPipelineStrategy
  else if applies_linear MODEL then LinearModelStrategy
  else HeuristicStrategy.

(** The selected branch runs to its [return]: for the learned pipeline
    branch, [MODEL['pipeline']] exists and has [named_steps]. *)
Definition answers (MODEL : option Object) : bool :=
  match serving MODEL with
  | LearnedPipelineStrategy =>
      match item MODEL pipeline with
      | Some p => present (named_steps p)
      | None => false
      end
  | LinearModelStrategy => true
  | HeuristicStrategy => true
  | NoStrategy => false
  end.

(** The value handed to the final clip of the serving branch. *)
Definition unclipped (MODEL : option Object) (rnd : Q) (X : list Q) : option Q :=
  match serving MODEL with
  | LearnedPipelineStrategy => learned_normalized MODEL rnd X
  | LinearModelStrategy => linear_normalized MODEL X
  | HeuristicStrategy =>
      let '(zsum, norm) := heuristic_sums X in Some (zsum / norm)
  | NoStrategy => None
  end.

(** The entries a branch writes after [score] and [label]. *)
Definition tier_entries (s : Strategy) : Response :=
  match s with
  | LearnedPipelineStrategy => []
  | LinearModelStrategy => [("model", Str "precomputed_linear")]
  | HeuristicStrategy => [("fallback", Bool true)]
  | NoStrategy => []
  end.

Definition score_of (r : option Response) : option Q :=
  match r with
  | Some resp =>
      match lookup "score" resp with
      | Some (Number q) => Some q
      | _ => None
      end
  | None => None
  end.

Definition label_of (r : option Response) : option string :=
  match r with
  | Some resp =>
      match lookup "label" resp with
      | Some (Str l) => Some l
      | _ => None
      end
  | None => None
  end.

Definition entry (k : string) (r : option Response) : option json :=
  match r with
  | Some resp => lookup k resp
  | None => None
  end.

(** The value of [norm] after seven iterations. *)
Definition cap : Q :=
  0 + 3 * 1 + 3 * 1 + 3 * (5 # 10) + 3 * (3 # 10) + 3 * (5 # 10)
  + 3 * (5 # 10) + 3 * (8 # 10).


(** The largest finite binary64 value. *)
Definition binary64_max : Q := inject_Z (2 ^ 1024 - 2 ^ 971).

(** ** Variations of an input *)

(** The request [features] with [valueUSD] set to [v]. *)
Definition with_valueUSD (features : TxFeatures) (v : Q) : TxFeatures :=
  {| txHash := txHash features; from_addr := from_addr features;
     to := to features; valueUSD := Some v;
     relativeValue := relativeValue features;
     timeDelta := timeDelta features; txCount24h := txCount24h features;
     gasUsed := gasUsed features; gasPriceGwei := gasPriceGwei features;
     isNewCounterparty := isNewCounterparty features |}.

(** The dict [M] with the key [coefs] set to [c]. *)
Definition with_coefs (M : Model) (c : list Q) : Model :=
  {| pipeline := pipeline M; score_min := score_min M;
     score_max := score_max M; type := type M;
     coefs := Some c; intercept := intercept M |}.

(** ** Sample inputs *)

Definition no_features : TxFeatures :=
  {| txHash := None; from_addr := None; to := None; valueUSD := None;
     relativeValue := None; timeDelta := None; txCount24h := None;
     gasUsed := None; gasPriceGwei := None; isNewCounterparty := None |}.

Definition empty_dict : Model :=
  {| pipeline := None; score_min := None; score_max := None; type := None;
     coefs := None; intercept := None |}.

(** The request nearest to the medians: the two integer fields cannot hold
    a fraction. *)
Definition median_record : TxFeatures :=
  {| txHash := None; from_addr := None; to := None;
     valueUSD := Some 200; relativeValue := Some 1; timeDelta := Some 3600;
     txCount24h := Some 2%Z; gasUsed := Some 50000; gasPriceGwei := Some 30;
     isNewCounterparty := Some 0%Z |}.

(** The vector of [median_record] and the vector of [no_features]. *)
Definition median_vector : list Q := [200; 1; 3600; 2; 50000; 30; 0].
Definition zero_vector : list Q := [0; 0; 0; 0; 0; 0; 0].

(** A request the linear artifact [linear_dict] scores at 0.85004. *)
Definition borderline : TxFeatures :=
  with_valueUSD no_features 85004.
Definition borderline_vector : list Q := [85004; 0; 0; 0; 0; 0; 0].

(** A request whose [txCount24h] is the integer 2 ** 1024. *)
Definition huge_count : TxFeatures :=
  {| txHash := None; from_addr := None; to := None; valueUSD := None;
     relativeValue := None; timeDelta := None;
     txCount24h := Some (2 ^ 1024)%Z;
     gasUsed := None; gasPriceGwei := None; isNewCounterparty := None |}.

Definition sample_forest : Estimator :=
  {| decision_function := fun _ => Some (1 # 10) |}.

Definition failing_forest : Estimator :=
  {| decision_function := fun _ => None |}.

(** An estimator that returns minus the first feature. *)
Definition by_value : Estimator :=
  {| decision_function :=
       fun X => match X with x :: _ => Some (- x) | [] => None end |}.

Definition pipeline_of (clf : Estimator) : Pipeline :=
  {| named_steps := Some [("iforest", clf)];
     transform := fun _ => None;
     pipeline_decision_function := decision_function clf |}.

(** The estimator itself stored under the key [pipeline]. *)
Definition bare (clf : Estimator) : Pipeline :=
  {| named_steps := None;
     transform := fun _ => None;
     pipeline_decision_function := decision_function clf |}.

(** What [train.py] saves: a pipeline and the observed score range. *)
Definition learned_dict (clf : Estimator) : Model :=
  {| pipeline := Some (pipeline_of clf);
     score_min := Some (- (3 # 10)); score_max := Some (2 # 10);
     type := None; coefs := None; intercept := None |}.

(** [{"type": "linear", "coefs": [1], "score_min": 0, "score_max": 100000}] *)
Definition linear_dict : Model :=
  {| pipeline := None; score_min := Some 0; score_max := Some 100000;
     type := Some "linear"; coefs := Some [1]; intercept := None |}.

(** [{"type": "linear", "coefs": [10, -10]}] and a request with
    [valueUSD = relativeValue = 1e308]. *)
Definition steep_dict : Model :=
  {| pipeline := None; score_min := None; score_max := None;
     type := Some "linear"; coefs := Some [10; - (10)]; intercept := None |}.

Definition large_request : TxFeatures :=
  {| txHash := None; from_addr := None; to := None;
     valueUSD := Some (inject_Z (10 ^ 308));
     relativeValue := Some (inject_Z (10 ^ 308));
     timeDelta := None; txCount24h := None;
     gasUsed := None; gasPriceGwei := None; isNewCounterparty := None |}.

(** * Properties *)

(** ** Comparisons and clipping *)

Lemma Qlt_bool_iff (x y : Q) : Qlt_bool x y = true <-> x < y.
Proof.
  unfold Qlt_bool. rewrite negb_true_iff. split; intros H.
  - apply Qnot_le_lt. intros Hle. apply Qle_bool_iff in Hle. congruence.
  - destruct (Qle_bool y x) eqn:E; [|reflexivity].
    apply Qle_bool_iff in E. lra.
Qed.

Lemma Qlt_bool_false (x y : Q) : Qlt_bool x y = false <-> y <= x.
Proof.
  unfold Qlt_bool. rewrite negb_false_iff. apply Qle_bool_iff.
Qed.

Ltac case_lt x y :=
  let E := fresh "E" in
  destruct (Qlt_bool x y) eqn:E;
  [apply Qlt_bool_iff in E | apply Qlt_bool_false in E].

Lemma clip_bounds (a lo hi : Q) :
  lo <= hi -> lo <= np.clip a lo hi <= hi.
Proof.
  intros H. unfold np.clip, np.minimum, np.maximum.
  case_lt a lo; [case_lt hi lo | case_lt hi a]; lra.
Qed.

Lemma clip_mono (a b lo hi : Q) :
  a <= b -> np.clip a lo hi <= np.clip b lo hi.
Proof.
  intros H. unfold np.clip, np.minimum, np.maximum.
  case_lt a lo; case_lt b lo;
    repeat match goal with
           | |- context [Qlt_bool ?x ?y] => case_lt x y
           end; lra.
Qed.

Lemma clip_Qeq (a b lo hi : Q) : a == b -> np.clip a lo hi == np.clip b lo hi.
Proof.
  intros H. apply Qle_antisym; apply clip_mono; lra.
Qed.

Lemma clip_unit_inside (a : Q) : 0 <= a <= 1 -> np.clip a 0 1 = a.
Proof.
  intros H. unfold np.clip, np.minimum, np.maximum.
  case_lt a 0; [lra|]. case_lt 1 a; [lra|]. reflexivity.
Qed.

Lemma clip_unit_high (a : Q) : 1 <= a -> np.clip a 0 1 == 1.
Proof.
  intros H. unfold np.clip, np.minimum, np.maximum.
  case_lt a 0; [lra|]. case_lt 1 a; lra.
Qed.

Lemma clip_unit_low (a : Q) : a <= 0 -> np.clip a 0 1 == 0.
Proof.
  intros H. unfold np.clip, np.minimum, np.maximum.
  case_lt a 0; [case_lt 1 0; lra|]. case_lt 1 a; lra.
Qed.


Lemma Qlt_bool_Qeq (a x y : Q) : x == y -> Qlt_bool a x = Qlt_bool a y.
Proof.
  intros H. case_lt a x; case_lt a y; try reflexivity; lra.
Qed.

(** ** Rounding *)

Lemma round_half_even_cases (q : Q) :
  py.round_half_even q = Qfloor q \/ py.round_half_even q = (Qfloor q + 1)%Z.
Proof.
  unfold py.round_half_even.
  destruct (Qcompare _ _); [destruct (Z.even _)|..]; auto.
Qed.


Lemma round_half_even_mono (x y : Q) :
  x <= y -> (py.round_half_even x <= py.round_half_even y)%Z.
Proof.
  intros Hxy.
  pose proof (Qfloor_resp_le x y Hxy) as Hf.
  destruct (Z.eq_dec (Qfloor x) (Qfloor y)) as [E|N].
  - unfold py.round_half_even. rewrite E.
    destruct (Qcompare_spec (x - inject_Z (Qfloor y)) (1 # 2)) as [Hx|Hx|Hx];
      destruct (Qcompare_spec (y - inject_Z (Qfloor y)) (1 # 2)) as [Hy|Hy|Hy];
      try lra; destruct (Z.even (Qfloor y)); lia.
  - destruct (round_half_even_cases x) as [-> | ->];
      destruct (round_half_even_cases y) as [-> | ->]; lia.
Qed.

Lemma Qmake_le (a b : Z) (p : positive) : (a <= b)%Z -> a # p <= b # p.
Proof.
  intros H. unfold Qle. simpl. apply Z.mul_le_mono_pos_r; [lia | exact H].
Qed.

Lemma round_mono (x y : Q) (n : nat) : x <= y -> py.round x n <= py.round y n.
Proof.
  intros H. unfold py.round. apply Qmake_le, round_half_even_mono.
  apply Qmult_le_compat_r; [exact H|].
  change 0 with (inject_Z 0). rewrite <- Zle_Qle. apply Z.pow_nonneg. lia.
Qed.

Lemma round_Qeq (x y : Q) (n : nat) : x == y -> py.round x n = py.round y n.
Proof.
  intros H. unfold py.round. f_equal.
  apply Z.le_antisymm; apply round_half_even_mono;
    apply Qmult_le_compat_r; try lra;
    change 0 with (inject_Z 0); rewrite <- Zle_Qle; apply Z.pow_nonneg; lia.
Qed.

(** A number with at most four decimals is its own rounding. *)
Lemma round4_exact (k : Z) : py.round (k # 10000) 4 = k # 10000.
Proof.
  unfold py.round. change (Z.to_pos (10 ^ Z.of_nat 4)) with 10000%positive.
  change (10 ^ Z.of_nat 4)%Z with 10000%Z. f_equal.
  assert (E : (k # 10000) * inject_Z 10000 == inject_Z k).
  { unfold Qeq, Qmult, inject_Z. simpl. lia. }
  unfold py.round_half_even.
  assert (Ef : Qfloor ((k # 10000) * inject_Z 10000) = k).
  { rewrite E. apply Qfloor_Z. }
  rewrite Ef.
  destruct (Qcompare_spec ((k # 10000) * inject_Z 10000 - inject_Z k) (1 # 2))
    as [H|H|H]; [lra | reflexivity | lra].
Qed.


Lemma round4_threshold_above (s : Q) : 85 # 100 < py.round s 4 -> 85 # 100 < s.
Proof.
  intros H. destruct (Qlt_le_dec (85 # 100) s) as [Hs|Hs]; [exact Hs|].
  pose proof (round_mono s (85 # 100) 4 Hs) as Hr.
  change (py.round (85 # 100) 4) with (8500 # 10000) in Hr. lra.
Qed.

Lemma round4_threshold_below (s : Q) : 85 # 100 < s -> 85 # 100 <= py.round s 4.
Proof.
  intros H.
  assert (Hs : 85 # 100 <= s) by lra.
  pose proof (round_mono (85 # 100) s 4 Hs) as Hr.
  change (py.round (85 # 100) 4) with (8500 # 10000) in Hr. lra.
Qed.




Lemma Qdiv_le_mono (x y c : Q) : 0 < c -> x <= y -> x / c <= y / c.
Proof.
  intros Hc Hxy. unfold Qdiv. apply Qmult_le_compat_r; [exact Hxy|].
  apply Qlt_le_weak, Qinv_lt_0_compat, Hc.
Qed.

Lemma Qdiv_nonneg (x c : Q) : 0 < c -> 0 <= x -> 0 <= x / c.
Proof.
  intros Hc Hx. apply Qle_shift_div_l; [exact Hc | lra].
Qed.

(** ** The heuristic loop on a vector of seven numbers *)

Lemma cap_value : cap == 138 # 10.
Proof. reflexivity. Qed.

Lemma cap_guard : Qle_bool cap 0 = false.
Proof. reflexivity. Qed.

Lemma cap_positive : 0 < cap.
Proof. reflexivity. Qed.

Lemma heuristic_sums_7 (x1 x2 x3 x4 x5 x6 x7 : Q) :
  heuristic_sums [x1; x2; x3; x4; x5; x6; x7] =
  (0 + py.abs ((x1 - 200) / 500) * 1
     + py.abs ((x2 - 1) / 2) * 1
     + py.abs ((x3 - 3600) / 3600) * (5 # 10)
     + py.abs ((x4 - 2) / 2) * (3 # 10)
     + py.abs ((x5 - 50000) / 20000) * (5 # 10)
     + py.abs ((x6 - 30) / 10) * (5 # 10)
     + py.abs ((x7 - (1 # 10)) / (3 # 10)) * (8 # 10),
   cap).
Proof. reflexivity. Qed.

Ltac seven Xv H :=
  do 7 (let x := fresh "x" in destruct Xv as [|x Xv]; [discriminate H|]);
  destruct Xv; [clear H | discriminate H].

Lemma heuristic_norm (Xv : list Q) :
  List.length Xv = 7%nat -> snd (heuristic_sums Xv) = cap.
Proof.
  intros H. seven Xv H. rewrite heuristic_sums_7. reflexivity.
Qed.

Lemma heuristic_score_7 (Xv : list Q) :
  List.length Xv = 7%nat ->
  heuristic_score Xv = np.clip (fst (heuristic_sums Xv) / cap) 0 1.
Proof.
  intros H. unfold heuristic_score.
  pose proof (heuristic_norm Xv H) as Hn.
  destruct (heuristic_sums Xv) as [zsum norm]. cbn [snd fst] in *. subst norm.
  rewrite cap_guard. reflexivity.
Qed.

Lemma z_term_abs (x m s : Q) : 0 < s -> py.abs ((x - m) / s) == Qabs (x - m) / s.
Proof.
  intros Hs. unfold py.abs, Qdiv. rewrite Qabs_Qmult.
  rewrite (Qabs_pos (/ s)); [reflexivity|].
  apply Qlt_le_weak, Qinv_lt_0_compat, Hs.
Qed.


Lemma heuristic_score_by_distance (a b : Q) (rest : list Q) :
  List.length rest = 6%nat -> Qabs (a - 200) <= Qabs (b - 200) ->
  heuristic_score (a :: rest) <= heuristic_score (b :: rest).
Proof.
  intros H Hab.
  assert (La : List.length (a :: rest) = 7%nat) by (cbn; congruence).
  assert (Lb : List.length (b :: rest) = 7%nat) by (cbn; congruence).
  rewrite (heuristic_score_7 _ La), (heuristic_score_7 _ Lb).
  clear La Lb.
  do 6 (let x := fresh "x" in destruct rest as [|x rest]; [discriminate H|]).
  destruct rest; [clear H | discriminate H].
  rewrite !heuristic_sums_7. cbn [fst]. apply clip_mono.
  apply Qdiv_le_mono; [exact cap_positive|].
  assert (Hz : py.abs ((a - 200) / 500) <= py.abs ((b - 200) / 500)).
  { rewrite !z_term_abs by reflexivity.
    apply Qdiv_le_mono; [reflexivity | exact Hab]. }
  unfold py.abs in *.
  repeat match goal with
         | |- context [Qabs ?e] =>
             let t := fresh "t" in set (t := Qabs e) in *; clearbody t
         end.
  lra.
Qed.

Lemma heuristic_branch_score (X : list Q) :
  score_of (heuristic_branch X) = Some (py.round (heuristic_score X) 4).
Proof. reflexivity. Qed.

Lemma heuristic_branch_Qeq (X Y : list Q) :
  heuristic_score X == heuristic_score Y ->
  heuristic_branch X = heuristic_branch Y.
Proof.
  intros E. unfold heuristic_branch.
  rewrite (round_Qeq _ _ 4 E), (Qlt_bool_Qeq _ _ _ E). reflexivity.
Qed.

(** ** Converting an integer to a float *)

Lemma nearest_binary64_exact (a : Z) :
  (0 <= a < 2 ^ 53)%Z -> py.nearest_binary64 a = a.
Proof.
  intros [H0 H1]. unfold py.nearest_binary64.
  destruct (Z.leb_spec (Z.log2 a - 52) 0) as [H|H]; [reflexivity|].
  exfalso. assert (Ha : (0 < a)%Z).
  { destruct (Z.eq_dec a 0) as [->|]; [cbn in H; lia | lia]. }
  apply (Z.log2_lt_pow2 a 53 Ha) in H1. lia.
Qed.

(** The shape of the rounding when [a] has more than 53 bits: [a] is
    [q * P + r] with [P] a power of two and [q] of exactly 53 bits, and the
    result is [q * P] or [(q + 1) * P]. *)
Lemma nearest_binary64_shape (a : Z) :
  (0 < Z.log2 a - 52)%Z ->
  exists q r h : Z,
    let P := (2 ^ (Z.log2 a - 52))%Z in
    (a = q * P + r /\ 0 <= r < P /\ P = 2 * h /\ 0 < h /\
     2 ^ 52 <= q < 2 ^ 53 /\
     2 ^ Z.log2 a = 2 ^ 52 * P /\
     py.nearest_binary64 a =
       (if r <? h then q
        else if h <? r then q + 1
             else if Z.even q then q else q + 1) * P)%Z.
Proof.
  intros He.
  assert (Ha : (0 < a)%Z).
  { destruct (Z_lt_le_dec 0 a) as [H|H]; [exact H|].
    rewrite (Z.log2_nonpos a H) in He. lia. }
  set (e := (Z.log2 a - 52)%Z) in *.
  destruct (Z.log2_spec a Ha) as [Hlo Hhi].
  assert (EL : Z.log2 a = (52 + e)%Z) by (subst e; lia).
  assert (EP : (2 ^ Z.log2 a = 2 ^ 52 * 2 ^ e)%Z).
  { rewrite EL. apply Z.pow_add_r; lia. }
  assert (EP' : (2 ^ Z.succ (Z.log2 a) = 2 ^ 53 * 2 ^ e)%Z).
  { rewrite EL. replace (Z.succ (52 + e)) with (53 + e)%Z by lia.
    apply Z.pow_add_r; lia. }
  assert (Eh : (2 ^ e = 2 * 2 ^ (e - 1))%Z).
  { replace e with (1 + (e - 1))%Z at 1 by lia.
    rewrite Z.pow_add_r by lia. reflexivity. }
  assert (HP : (0 < 2 ^ e)%Z) by (apply Z.pow_pos_nonneg; lia).
  assert (Hh : (0 < 2 ^ (e - 1))%Z) by (apply Z.pow_pos_nonneg; lia).
  exists (a / 2 ^ e)%Z, (a mod 2 ^ e)%Z, (2 ^ (e - 1))%Z. cbn zeta.
  pose proof (Z.div_mod a (2 ^ e) ltac:(lia)) as Hdm.
  pose proof (Z.mod_pos_bound a (2 ^ e) HP) as Hr.
  split; [lia|]. split; [exact Hr|]. split; [exact Eh|]. split; [exact Hh|].
  split.
  - split.
    + apply Z.div_le_lower_bound; [exact HP | lia].
    + apply Z.div_lt_upper_bound; [exact HP | lia].
  - split; [exact EP|].
    unfold py.nearest_binary64. fold e.
    destruct (Z.leb_spec e 0) as [H|_]; [lia|].
    rewrite Z.shiftr_div_pow2 by lia.
    rewrite !Z.shiftl_mul_pow2 by lia.
    replace (a - a / 2 ^ e * 2 ^ e)%Z with (a mod 2 ^ e)%Z by lia.
    rewrite Z.mul_1_l. reflexivity.
Qed.


Lemma float_of_int_exact (z : Z) :
  (Z.abs z < 2 ^ 53)%Z -> py.float_of_int z = Some (inject_Z z).
Proof.
  intros H. unfold py.float_of_int.
  rewrite nearest_binary64_exact by lia.
  destruct (Z.leb_spec (2 ^ 1024) (Z.abs z)) as [H'|_].
  - exfalso. assert (2 ^ 53 < 2 ^ 1024)%Z by reflexivity. lia.
  - do 2 f_equal. lia.
Qed.


Lemma nearest_binary64_overflow (a : Z) :
  (0 <= a)%Z ->
  (2 ^ 1024 <= py.nearest_binary64 a <-> 2 ^ 1024 - 2 ^ 970 <= a)%Z.
Proof.
  intros Ha. destruct (Z_lt_le_dec 0 (Z.log2 a - 52)) as [He|He].
  - destruct (nearest_binary64_shape a He) as [q [r [h H]]]. cbn zeta in H.
    destruct H as [Ea [Hr [HP [Hh [Hq [EL ->]]]]]].
    set (P := (2 ^ (Z.log2 a - 52))%Z) in *.
    assert (HPpos : (0 < P)%Z) by lia.
    assert (Hlo : (2 ^ 52 * P <= q * P)%Z)
      by (apply Z.mul_le_mono_nonneg_r; lia).
    assert (Hhi : ((q + 1) * P <= 2 ^ 53 * P)%Z)
      by (apply Z.mul_le_mono_nonneg_r; lia).
    assert (Hm : (q * P <=
                  (if r <? h then q
                   else if h <? r then q + 1
                        else if Z.even q then q else q + 1) * P
                  <= (q + 1) * P)%Z).
    { destruct (r <? h)%Z; [|destruct (h <? r)%Z; [|destruct (Z.even q)]];
        nia. }
    destruct (Z_lt_le_dec (Z.log2 a) 1023) as [HL|HL];
      [|destruct (Z_lt_le_dec 1023 (Z.log2 a)) as [HL'|HL']].
    + assert (Hp : (2 ^ Z.log2 a <= 2 ^ 1022)%Z)
        by (apply Z.pow_le_mono_r; lia).
      assert (E53 : (2 ^ 53 * P = 2 * (2 ^ 52 * P))%Z).
      { change (2 ^ 53)%Z with (2 * 2 ^ 52)%Z. ring. }
      assert (C1 : (2 * 2 ^ 1022 < 2 ^ 1024 - 2 ^ 970)%Z) by reflexivity.
      assert (C2 : (2 ^ 1024 - 2 ^ 970 < 2 ^ 1024)%Z) by reflexivity.
      split; intros H; exfalso; lia.
    + assert (Hp : (2 ^ 1024 <= 2 ^ Z.log2 a)%Z)
        by (apply Z.pow_le_mono_r; lia).
      assert (C2 : (2 ^ 1024 - 2 ^ 970 < 2 ^ 1024)%Z) by reflexivity.
      split; intros _; lia.
    + assert (EL' : Z.log2 a = 1023%Z) by lia.
      assert (EP : P = (2 ^ 971)%Z) by (subst P; rewrite EL'; reflexivity).
      assert (Eh : h = (2 ^ 970)%Z).
      { assert (2 ^ 971 = 2 * 2 ^ 970)%Z by reflexivity. lia. }
      clear Hm Hlo Hhi EL. rewrite EP in *. subst h.
      assert (C : (2 ^ 1024 = 2 ^ 53 * 2 ^ 971)%Z) by reflexivity.
      assert (C' : (2 ^ 971 = 2 * 2 ^ 970)%Z) by reflexivity.
      set (T := (2 ^ 970)%Z) in *. set (U := (2 ^ 971)%Z) in *.
      destruct (Z.ltb_spec r T) as [H1|H1];
        [|destruct (Z.ltb_spec T r) as [H2|H2];
          [|destruct (Z.even q) eqn:Ev]].
      * split; intros H; exfalso; nia.
      * split; intros H; nia.
      * apply Z.even_spec in Ev. destruct Ev as [k Ek].
        assert (Hq' : (q <= 2 ^ 53 - 2)%Z).
        { change (2 ^ 53)%Z with 9007199254740992%Z in *. lia. }
        split; intros H; exfalso; nia.
      * assert (Od : Z.odd q = true) by (rewrite <- Z.negb_even, Ev; reflexivity).
        split; intros H; nia.
  - unfold py.nearest_binary64.
    destruct (Z.leb_spec (Z.log2 a - 52) 0) as [_|H]; [|lia].
    assert (Hs : (a < 2 ^ 53)%Z).
    { destruct (Z.eq_dec a 0) as [->|Hn]; [reflexivity|].
      apply Z.log2_lt_pow2; lia. }
    assert (C1 : (2 ^ 53 < 2 ^ 1024 - 2 ^ 970)%Z) by reflexivity.
    assert (C2 : (2 ^ 1024 - 2 ^ 970 < 2 ^ 1024)%Z) by reflexivity.
    split; intros H; exfalso; lia.
Qed.

(** ** The vectoriser *)

Lemma feature_vector_equation (features : TxFeatures) :
  feature_vector features =
    match filled (option_map py.Int (txCount24h features)),
          filled (option_map py.Int (isNewCounterparty features)) with
    | Some count, Some new =>
        Some [py.get (valueUSD features) 0;
              py.get (relativeValue features) 0;
              py.get (timeDelta features) 0;
              count;
              py.get (gasUsed features) 0;
              py.get (gasPriceGwei features) 0;
              new]
    | _, _ => None
    end.
Proof.
  destruct features as [h f t v r d c g p i].
  unfold feature_vector, dict, feature_order.
  cbn -[py.float_of_int].
  destruct v, r, d, g, p; cbn -[py.float_of_int];
    destruct c as [zc|], i as [zi|]; cbn -[py.float_of_int];
    repeat match goal with
           | |- context [py.float_of_int ?z] => destruct (py.float_of_int z)
           end; reflexivity.
Qed.

Lemma feature_vector_length (features : TxFeatures) (X : list Q) :
  feature_vector features = Some X -> List.length X = 7%nat.
Proof.
  rewrite feature_vector_equation.
  destruct (filled _); [|discriminate]. destruct (filled _); [|discriminate].
  intros H. injection H as <-. reflexivity.
Qed.

Lemma feature_vector_with_valueUSD (features : TxFeatures) (v : Q) :
  feature_vector (with_valueUSD features v)
  = option_map (fun X => v :: tl X) (feature_vector features).
Proof.
  rewrite !feature_vector_equation. cbn [with_valueUSD txCount24h
    isNewCounterparty valueUSD relativeValue timeDelta gasUsed gasPriceGwei].
  destruct (filled _); [|reflexivity]. destruct (filled _); reflexivity.
Qed.


(** ** The linear branch on any vector *)

Lemma align_length (coefs arr : list Q) :
  List.length (align coefs arr) = List.length arr.
Proof.
  unfold align, np.pad, np.take.
  destruct (Nat.ltb_spec (List.length coefs) (List.length arr)) as [H|H].
  - rewrite length_app, repeat_length. lia.
  - destruct (Nat.ltb_spec (List.length arr) (List.length coefs)) as [H'|H'].
    + apply firstn_length_le. lia.
    + lia.
Qed.

Lemma dot_align (coefs arr : list Q) :
  np.dot arr (align coefs arr) = Some (np.inner arr (align coefs arr)).
Proof.
  unfold np.dot. rewrite align_length, Nat.eqb_refl. reflexivity.
Qed.

Lemma linear_raw_total (MODEL : option Object) (X : list Q) :
  linear_raw MODEL X =
    Some (np.inner X (align (py.get (item MODEL coefs) []) X)
          + py.get (item MODEL intercept) 0).
Proof.
  unfold linear_raw. rewrite dot_align. reflexivity.
Qed.

Lemma linear_normalized_total (MODEL : option Object) (X : list Q) :
  exists pre, linear_normalized MODEL X = Some pre.
Proof.
  unfold linear_normalized. rewrite linear_raw_total.
  destruct (Qlt_bool _ _); eexists; reflexivity.
Qed.

(** ** Dispatch *)

Section Dispatch.

Variable MODEL : option Object.
Variable rnd : Q.
Variable features : TxFeatures.
Variable X : list Q.
Hypothesis accepted : feature_vector features = Some X.

Ltac by_dispatch :=
  unfold serving, anomaly; rewrite accepted;
  destruct (not_iterable MODEL), (applies_learned MODEL),
    (applies_linear MODEL);
  intros H; try discriminate H; reflexivity.

Lemma anomaly_learned :
  serving MODEL = LearnedPipelineStrategy ->
  anomaly MODEL rnd features = learned_branch MODEL rnd X.
Proof. by_dispatch. Qed.

Lemma anomaly_linear :
  serving MODEL = LinearModelStrategy ->
  anomaly MODEL rnd features = linear_branch MODEL X.
Proof. by_dispatch. Qed.

Lemma anomaly_heuristic :
  serving MODEL = HeuristicStrategy ->
  anomaly MODEL rnd features = heuristic_branch X.
Proof. by_dispatch. Qed.

End Dispatch.

Lemma anomaly_rejected (MODEL : option Object) (rnd : Q) (features : TxFeatures) :
  feature_vector features = None -> anomaly MODEL rnd features = None.
Proof.
  intros H. unfold anomaly. rewrite H. reflexivity.
Qed.

(** ** The shape of every response *)

Lemma learned_normalized_total (MODEL : option Object) (rnd : Q) (X : list Q) :
  serving MODEL = LearnedPipelineStrategy -> answers MODEL = true ->
  exists pre, learned_normalized MODEL rnd X = Some pre.
Proof.
  intros Hs Ha. unfold answers in Ha. rewrite Hs in Ha.
  unfold learned_normalized, classifier.
  destruct (item MODEL pipeline) as [p|]; [|discriminate Ha].
  destruct (named_steps p); [|discriminate Ha].
  destruct (Qlt_bool _ _); eexists; reflexivity.
Qed.

Lemma anomaly_shape (MODEL : option Object) (rnd : Q) (features : TxFeatures)
  (X : list Q) :
  feature_vector features = Some X -> answers MODEL = true ->
  exists pre,
    unclipped MODEL rnd X = Some pre /\
    anomaly MODEL rnd features =
      Some (("score", Number (py.round (np.clip pre 0 1) 4))
            :: ("label",
                Str (if Qlt_bool (85 # 100) (np.clip pre 0 1)
                     then "suspicious" else "normal"))
            :: tier_entries (serving MODEL)).
Proof.
  intros HX Ha.
  destruct (serving MODEL) eqn:Hs; unfold unclipped; rewrite Hs.
  - rewrite (anomaly_learned _ _ _ _ HX Hs).
    destruct (learned_normalized_total MODEL rnd X Hs Ha) as [pre Hpre].
    exists pre. split; [exact Hpre|].
    unfold learned_branch. rewrite Hpre. reflexivity.
  - rewrite (anomaly_linear _ _ _ _ HX Hs).
    destruct (linear_normalized_total MODEL X) as [pre Hpre].
    exists pre. split; [exact Hpre|].
    unfold linear_branch. rewrite Hpre. reflexivity.
  - rewrite (anomaly_heuristic _ _ _ _ HX Hs).
    pose proof (heuristic_norm _ (feature_vector_length _ _ HX)) as Hn.
    unfold heuristic_branch, heuristic_score.
    destruct (heuristic_sums X) as [zsum norm].
    cbn [snd] in Hn. subst norm. rewrite cap_guard.
    eexists. split; reflexivity.
  - unfold answers in Ha. rewrite Hs in Ha. discriminate Ha.
Qed.

(** A request is answered only if the vectoriser accepted it and the
    selected branch ran to its [return]. *)
Lemma anomaly_answered (MODEL : option Object) (rnd : Q) (features : TxFeatures)
  (resp : Response) :
  anomaly MODEL rnd features = Some resp ->
  exists X, feature_vector features = Some X /\ answers MODEL = true.
Proof.
  unfold anomaly, answers, serving.
  destruct (feature_vector features) as [X|]; [|discriminate].
  destruct (not_iterable MODEL); [discriminate|].
  intros H. exists X. split; [reflexivity|].
  destruct (applies_learned MODEL).
  - unfold learned_branch, learned_normalized, classifier in H.
    destruct (item MODEL pipeline) as [p|]; [|discriminate H].
    destruct (named_steps p); [reflexivity | discriminate H].
  - destruct (applies_linear MODEL); reflexivity.
Qed.

(** ** The extra key of a response *)

(** C1, as stated, fails: a response of the learned pipeline branch has no
    key besides score and label, and a response of the linear branch carries
    the key "model" with the text "precomputed_linear", not a key
    "precomputed_linear". *)
Lemma tier_key_counterexample :
  anomaly (Some (Dict (learned_dict sample_forest))) 0 no_features =
    Some [("score", Number (4000 # 10000)); ("label", Str "normal")]
  /\ entry "model" (anomaly (Some (Dict (learned_dict sample_forest))) 0 no_features)
     = None
  /\ anomaly (Some (Dict linear_dict)) 0 no_features =
       Some [("score", Number (0 # 10000)); ("label", Str "normal");
             ("model", Str "precomputed_linear")]
  /\ entry "precomputed_linear" (anomaly (Some (Dict linear_dict)) 0 no_features)
     = None.
Proof.
  repeat split; reflexivity.
Qed.

(** C1, amended: a request that the vectoriser accepts, served by a branch
    that runs to its return, is answered with an object whose keys are score
    and label alone when the learned pipeline branch served it, score, label
    and "model" (holding the text "precomputed_linear") when the linear
    branch served it, and score, label and "fallback" (holding true) when
    the heuristic branch served it. *)
Theorem response_keys_by_tier
  (MODEL : option Object) (rnd : Q) (features : TxFeatures) (X : list Q) :
  feature_vector features = Some X -> answers MODEL = true ->
  exists resp,
    anomaly MODEL rnd features = Some resp /\
    match serving MODEL with
    | LearnedPipelineStrategy => keys resp = ["score"; "label"]
    | LinearModelStrategy =>
        keys resp = ["score"; "label"; "model"] /\
        lookup "model" resp = Some (Str "precomputed_linear")
    | HeuristicStrategy =>
        keys resp = ["score"; "label"; "fallback"] /\
        lookup "fallback" resp = Some (Bool true)
    | NoStrategy => False
    end.
Proof.
  intros HX Ha.
  destruct (anomaly_shape MODEL rnd features X HX Ha) as [pre [_ H]].
  eexists. split; [exact H|].
  unfold answers in Ha. destruct (serving MODEL); cbn; auto. discriminate Ha.
Qed.

Lemma response_keys_by_tier_witness :
  exists resp,
    anomaly (Some (Dict linear_dict)) 0 borderline = Some resp /\
    keys resp = ["score"; "label"; "model"] /\
    lookup "model" resp = Some (Str "precomputed_linear").
Proof.
  apply (response_keys_by_tier (Some (Dict linear_dict)) 0 borderline
           borderline_vector); reflexivity.
Defined.

(** ** The range of the score *)

(** C2, at the failing input: the linear artifact with coefficients 10 and
    -10 is served by the linear branch, and on the request with valueUSD and
    relativeValue both 1e308 the two products of the dot product lie beyond
    the largest finite binary64 value, on opposite sides.  In binary64 they
    are the two infinities; their sum is not a number, and neither the
    normalisation, the clip nor the rounding changes that. *)
Theorem linear_products_leave_binary64 :
  serving (Some (Dict steep_dict)) = LinearModelStrategy
  /\ feature_vector large_request
     = Some [inject_Z (10 ^ 308); inject_Z (10 ^ 308); 0; 0; 0; 0; 0]
  /\ align (py.get (item (Some (Dict steep_dict)) coefs) [])
       [inject_Z (10 ^ 308); inject_Z (10 ^ 308); 0; 0; 0; 0; 0]
     = [10; - (10); 0; 0; 0; 0; 0]
  /\ binary64_max < inject_Z (10 ^ 308) * 10
  /\ inject_Z (10 ^ 308) * - (10) < - binary64_max.
Proof.
  repeat split; vm_compute; reflexivity.
Qed.

(** ** The label *)

(** C3, as stated, fails: the label is taken before the score is rounded, so
    a response can be labelled suspicious while its returned score is 0.85,
    which is not greater than 0.85. *)
Lemma label_counterexample :
  anomaly (Some (Dict linear_dict)) 0 borderline =
    Some [("score", Number (8500 # 10000)); ("label", Str "suspicious");
          ("model", Str "precomputed_linear")]
  /\ ~ (85 # 100 < 8500 # 10000).
Proof.
  split; [reflexivity|]. intros H. discriminate H.
Qed.

(** C3, amended: in every branch the label of an answered request is
    suspicious or normal; it is suspicious when the returned score is
    greater than 0.85 and normal when the returned score is less than 0.85;
    a returned score of exactly 0.85 can carry either label. *)
Theorem label_threshold
  (MODEL : option Object) (rnd : Q) (features : TxFeatures) (X : list Q) :
  feature_vector features = Some X -> answers MODEL = true ->
  exists s l,
    score_of (anomaly MODEL rnd features) = Some s /\
    label_of (anomaly MODEL rnd features) = Some l /\
    (l = "suspicious" \/ l = "normal") /\
    (85 # 100 < s -> l = "suspicious") /\
    (s < 85 # 100 -> l = "normal") /\
    (l = "suspicious" -> 85 # 100 <= s).
Proof.
  intros HX Ha.
  destruct (anomaly_shape MODEL rnd features X HX Ha) as [pre [_ H]].
  exists (py.round (np.clip pre 0 1) 4).
  exists (if Qlt_bool (85 # 100) (np.clip pre 0 1)
          then "suspicious" else "normal").
  rewrite H. split; [reflexivity|]. split; [reflexivity|].
  case_lt (85 # 100) (np.clip pre 0 1).
  - pose proof (round4_threshold_below _ E) as Hs.
    split; [left; reflexivity|]. split; [reflexivity|].
    split; [intros H'; lra|]. intros _. exact Hs.
  - assert (Hs : py.round (np.clip pre 0 1) 4 <= 85 # 100).
    { destruct (Qlt_le_dec (85 # 100) (py.round (np.clip pre 0 1) 4))
        as [H'|H']; [|exact H'].
      apply round4_threshold_above in H'. lra. }
    split; [right; reflexivity|]. split; [intros H'; lra|].
    split; [reflexivity | discriminate].
Qed.

Lemma label_threshold_witness :
  exists s l,
    score_of (anomaly None 0 median_record) = Some s /\
    label_of (anomaly None 0 median_record) = Some l /\
    (l = "suspicious" \/ l = "normal") /\
    (85 # 100 < s -> l = "suspicious") /\
    (s < 85 # 100 -> l = "normal") /\
    (l = "suspicious" -> 85 # 100 <= s).
Proof.
  apply (label_threshold None 0 median_record median_vector); reflexivity.
Defined.

(** At a returned score of exactly 0.85 both labels occur. *)
Remark label_at_threshold_either :
  anomaly (Some (Dict linear_dict)) 0 (with_valueUSD no_features 84996) =
    Some [("score", Number (8500 # 10000)); ("label", Str "normal");
          ("model", Str "precomputed_linear")].
Proof. reflexivity. Qed.

(** ** The health endpoint *)

(** C4, as stated, fails: a precomputed document that is read but is of
    neither kind (here an empty object) makes the health endpoint report
    model_loaded true while the heuristic branch serves every request. *)
Lemma model_loaded_counterexample :
  entry "model_loaded" (Some (root (load_MODEL Missing (Holds (Dict empty_dict)))))
    = Some (Bool true)
  /\ serving (load_MODEL Missing (Holds (Dict empty_dict))) = HeuristicStrategy
  /\ entry "fallback"
       (anomaly (load_MODEL Missing (Holds (Dict empty_dict))) 0 no_features)
     = Some (Bool true).
Proof.
  repeat split; reflexivity.
Qed.

(** C4, amended: model_loaded is true exactly when MODEL is not None, that
    is when the model file, or failing that the precomputed file, loaded as
    an object other than None, usable or not; it is true whenever the
    learned pipeline or the linear branch is selected; and when it is false
    every request the vectoriser accepts is served by the heuristic branch
    with the fallback tag. *)
Theorem model_loaded_reports_read (pkl precomputed : File) :
  let MODEL := load_MODEL pkl precomputed in
  (lookup "model_loaded" (root MODEL) = Some (Bool true) <->
     (exists o, pkl = Holds o) \/ (exists o, precomputed = Holds o))
  /\ (lookup "model_loaded" (root MODEL) = Some (Bool true) <->
        MODEL <> None)
  /\ (lookup "model_loaded" (root MODEL) = Some (Bool false) <->
        MODEL = None)
  /\ (serving MODEL = LearnedPipelineStrategy \/
      serving MODEL = LinearModelStrategy ->
        lookup "model_loaded" (root MODEL) = Some (Bool true))
  /\ (lookup "model_loaded" (root MODEL) = Some (Bool false) ->
        forall rnd features X,
          feature_vector features = Some X ->
          serving MODEL = HeuristicStrategy /\
          entry "fallback" (anomaly MODEL rnd features) = Some (Bool true)).
Proof.
  cbn zeta. split; [|split; [|split; [|split]]].
  - destruct pkl, precomputed; cbn; split; intros H;
      try discriminate H; eauto;
      destruct H as [[m H]|[m H]]; discriminate H.
  - destruct pkl, precomputed; cbn; split; intros H;
      try discriminate H; try reflexivity; try congruence.
  - destruct pkl, precomputed; cbn; split; intros H;
      try discriminate H; reflexivity.
  - destruct pkl, precomputed; cbn; intros H; try reflexivity;
      destruct H as [H|H]; discriminate H.
  - intros H rnd features X HX.
    assert (E : load_MODEL pkl precomputed = None)
      by (destruct pkl, precomputed; cbn in H |- *; try discriminate H;
          reflexivity).
    rewrite E. split; [reflexivity|].
    unfold anomaly. rewrite HX. reflexivity.
Qed.

(** ** The heuristic branch at the medians *)

(** C5: the vector with every component at its reference median (200, 1.0,
    3600, 2, 50000, 30, 0.1) is scored exactly 0.0, labelled normal and
    tagged fallback by the heuristic branch. *)
Theorem heuristic_at_medians :
  heuristic_branch medians =
    Some [("score", Number (0 # 10000)); ("label", Str "normal");
          ("fallback", Bool true)]
  /\ heuristic_score medians == 0.
Proof.
  split; reflexivity.
Qed.

(** ** Coefficient alignment *)

(** C6: for every coefficient list of the artifact and every vector of
    seven features, the linear branch pads the coefficients on the right
    with zeros when there are fewer than 7 (so [2,3] becomes
    [2,3,0,0,0,0,0]), keeps the first 7 when there are more, and the dot
    product and the whole branch return a result. *)
Theorem linear_alignment (MODEL : option Object) (X : list Q) :
  List.length X = 7%nat ->
  let coefs := py.get (item MODEL coefs) [] in
  ((List.length coefs < 7)%nat ->
     align coefs X = coefs ++ repeat 0 (7 - List.length coefs))
  /\ ((7 < List.length coefs)%nat -> align coefs X = firstn 7 coefs)
  /\ (List.length coefs = 7%nat -> align coefs X = coefs)
  /\ align [2; 3] X = [2; 3; 0; 0; 0; 0; 0]
  /\ List.length (align coefs X) = 7%nat
  /\ np.dot X (align coefs X) = Some (np.inner X (align coefs X))
  /\ linear_raw MODEL X =
       Some (np.inner X (align coefs X) + py.get (item MODEL intercept) 0)
  /\ exists resp, linear_branch MODEL X = Some resp.
Proof.
  intros HX coefs.
  split; [|split; [|split; [|split; [|split; [|split; [|split]]]]]].
  - intros H. unfold align, np.pad. rewrite HX.
    destruct (Nat.ltb_spec (List.length coefs) 7); [reflexivity | lia].
  - intros H. unfold align, np.take. rewrite HX.
    destruct (Nat.ltb_spec (List.length coefs) 7); [lia|].
    destruct (Nat.ltb_spec 7 (List.length coefs)); [reflexivity | lia].
  - intros H. unfold align. rewrite HX, H. reflexivity.
  - unfold align. rewrite HX. reflexivity.
  - rewrite align_length. exact HX.
  - apply dot_align.
  - apply linear_raw_total.
  - destruct (linear_normalized_total MODEL X) as [pre Hpre].
    unfold linear_branch. rewrite Hpre. eexists. reflexivity.
Qed.

Lemma linear_alignment_witness :
  let X := borderline_vector in
  let coefs := py.get (item (Some (Dict linear_dict)) coefs) [] in
  List.length (align coefs X) = 7%nat
  /\ np.dot X (align coefs X) = Some (np.inner X (align coefs X)).
Proof.
  pose proof (linear_alignment (Some (Dict linear_dict)) borderline_vector
                eq_refl) as H.
  cbn zeta in *. split; apply H.
Defined.

(** ** Monotonicity of the heuristic score in valueUSD *)








(** The monotonicity of C7 is not strict after the clip: from valueUSD =
    7100 on, the score of the vector with the other components at their
    medians stays at 1.0. *)
Remark heuristic_plateau :
  score_of (heuristic_branch (7100 :: tl medians)) = Some (10000 # 10000)
  /\ score_of (heuristic_branch (50000 :: tl medians)) = Some (10000 # 10000).
Proof.
  split; reflexivity.
Qed.

(** ** Determinism *)

Lemma magnitude_named_steps (p : Pipeline) (X : list Q) (r : Q) :
  magnitude p X = Some r -> present (named_steps p) = true.
Proof.
  unfold magnitude, classifier. destruct (named_steps p);
    [reflexivity | discriminate].
Qed.

Lemma learned_normalized_rnd (MODEL : option Object) (rnd1 rnd2 : Q)
  (X : list Q) (p : Pipeline) (r : Q) :
  item MODEL pipeline = Some p -> magnitude p X = Some r ->
  learned_normalized MODEL rnd1 X = learned_normalized MODEL rnd2 X.
Proof.
  intros Hp Hr. unfold learned_normalized. rewrite Hp, Hr. reflexivity.
Qed.

(** C8: on a request the vectoriser accepts, with a linear artifact, or with
    a learned pipeline whose magnitude computation succeeds on the request,
    the response does not depend on the random source: two evaluations
    return the same score and label. *)
Theorem scoring_deterministic
  (MODEL : option Object) (features : TxFeatures) (X : list Q)
  (rnd1 rnd2 : Q) :
  feature_vector features = Some X ->
  serving MODEL = LinearModelStrategy \/
  (serving MODEL = LearnedPipelineStrategy /\
   exists p r, item MODEL pipeline = Some p /\ magnitude p X = Some r) ->
  exists s l,
    score_of (anomaly MODEL rnd1 features) = Some s /\
    score_of (anomaly MODEL rnd2 features) = Some s /\
    label_of (anomaly MODEL rnd1 features) = Some l /\
    label_of (anomaly MODEL rnd2 features) = Some l /\
    anomaly MODEL rnd1 features = anomaly MODEL rnd2 features.
Proof.
  intros HX H.
  assert (E : anomaly MODEL rnd1 features = anomaly MODEL rnd2 features).
  { destruct H as [Hs | [Hs [p [r [Hp Hr]]]]].
    - rewrite !(anomaly_linear _ _ _ _ HX Hs). reflexivity.
    - rewrite !(anomaly_learned _ _ _ _ HX Hs). unfold learned_branch.
      rewrite (learned_normalized_rnd MODEL rnd1 rnd2 _ p r Hp Hr).
      reflexivity. }
  assert (Ha : answers MODEL = true).
  { unfold answers. destruct H as [-> | [-> [p [r [-> Hr]]]]];
      [reflexivity | exact (magnitude_named_steps _ _ _ Hr)]. }
  destruct (anomaly_shape MODEL rnd2 features X HX Ha) as [pre [_ Hshape]].
  rewrite E, Hshape. do 2 eexists. repeat split; reflexivity.
Qed.

Lemma scoring_deterministic_witness :
  exists s l,
    score_of (anomaly (Some (Dict linear_dict)) 0 borderline) = Some s /\
    score_of (anomaly (Some (Dict linear_dict)) (1 # 2) borderline) = Some s /\
    label_of (anomaly (Some (Dict linear_dict)) 0 borderline) = Some l /\
    label_of (anomaly (Some (Dict linear_dict)) (1 # 2) borderline) = Some l /\
    anomaly (Some (Dict linear_dict)) 0 borderline
    = anomaly (Some (Dict linear_dict)) (1 # 2) borderline.
Proof.
  apply (scoring_deterministic (Some (Dict linear_dict)) borderline
           borderline_vector 0 (1 # 2)).
  - reflexivity.
  - left. reflexivity.
Defined.

(** The exclusion in C8 is needed: when [decision_function] raises, the
    label follows the random source. *)
Remark degraded_mode_follows_random :
  label_of (anomaly (Some (Dict (learned_dict failing_forest))) (1 # 10)
              no_features)
    = Some "normal"
  /\ label_of (anomaly (Some (Dict (learned_dict failing_forest))) (15 # 100)
                 no_features)
     = Some "suspicious".
Proof.
  split; reflexivity.
Qed.

(** ** The vectoriser on an integer beyond the float range *)

(** C9, at the failing input: on the request whose txCount24h is the
    integer 2 ** 1024 the conversion of line 59 raises, so the vectoriser
    returns no vector and the request is not answered, whatever the
    artifact. *)
Theorem vectoriser_overflow :
  py.float (py.Int (2 ^ 1024)) = None
  /\ feature_vector huge_count = None
  /\ forall MODEL rnd, anomaly MODEL rnd huge_count = None.
Proof.
  assert (H : feature_vector huge_count = None) by (vm_compute; reflexivity).
  split; [vm_compute; reflexivity|]. split; [exact H|].
  intros MODEL rnd. apply anomaly_rejected, H.
Qed.

(** ** The guard of the heuristic branch *)

(** C10: in the heuristic branch [norm] is 3.0 times the weight sum 4.6, that
    is 13.8, for every request the vectoriser accepts; the guard [norm <= 0]
    is never taken and the score is [clip(zsum / 13.8, 0, 1)]. *)
Theorem heuristic_guard_unreachable (features : TxFeatures) (X : list Q) :
  feature_vector features = Some X ->
  fold_right Qplus 0 weights == 46 # 10 /\
  snd (heuristic_sums X) == 3 * (46 # 10) /\
  snd (heuristic_sums X) == 138 # 10 /\
  Qle_bool (snd (heuristic_sums X)) 0 = false /\
  heuristic_score X == np.clip (fst (heuristic_sums X) / (138 # 10)) 0 1.
Proof.
  intros HX.
  pose proof (heuristic_norm X (feature_vector_length _ _ HX)) as Hn.
  rewrite Hn. repeat split; try reflexivity.
  rewrite (heuristic_score_7 X (feature_vector_length _ _ HX)).
  apply clip_Qeq. rewrite cap_value. reflexivity.
Qed.

Lemma heuristic_guard_unreachable_witness :
  fold_right Qplus 0 weights == 46 # 10 /\
  snd (heuristic_sums median_vector) == 3 * (46 # 10) /\
  snd (heuristic_sums median_vector) == 138 # 10 /\
  Qle_bool (snd (heuristic_sums median_vector)) 0 = false /\
  heuristic_score median_vector
  == np.clip (fst (heuristic_sums median_vector) / (138 # 10)) 0 1.
Proof.
  apply (heuristic_guard_unreachable median_record median_vector).
  reflexivity.
Defined.

(** ** The returned score of the heuristic branch *)





(** ** The fee endpoint *)



(** ** Coefficients of the linear artifact *)

Lemma firstn_repeat (x : Q) (n m : nat) :
  firstn n (repeat x m) = repeat x (Nat.min n m).
Proof.
  revert m. induction n as [|n IH]; intros [|m]; cbn; try reflexivity.
  rewrite IH. reflexivity.
Qed.

Lemma align_seven (c X : list Q) :
  List.length X = 7%nat -> align c X = firstn 7 (c ++ repeat 0 7).
Proof.
  intros HX. unfold align, np.pad, np.take. rewrite HX.
  rewrite firstn_app, firstn_repeat.
  destruct (Nat.ltb_spec (List.length c) 7) as [H|H].
  - rewrite firstn_all2 by lia. f_equal. f_equal. lia.
  - replace (Nat.min (7 - List.length c) 7) with 0%nat by lia.
    cbn [repeat]. rewrite app_nil_r.
    destruct (Nat.ltb_spec 7 (List.length c)) as [H'|H']; [reflexivity|].
    symmetry. apply firstn_all2. lia.
Qed.

Lemma anomaly_coefs_congr (M : Model) (c1 c2 : list Q) (rnd : Q)
  (features : TxFeatures) :
  (forall X, feature_vector features = Some X -> align c1 X = align c2 X) ->
  anomaly (Some (Dict (with_coefs M c1))) rnd features
  = anomaly (Some (Dict (with_coefs M c2))) rnd features.
Proof.
  intros H. unfold anomaly.
  destruct (feature_vector features) as [X|]; [|reflexivity].
  specialize (H X eq_refl).
  unfold not_iterable, applies_learned, applies_linear, learned_branch,
    learned_normalized, linear_branch, linear_normalized, linear_raw.
  cbn [item contains with_coefs pipeline score_min score_max type coefs
       intercept py.get present].
  rewrite H. reflexivity.
Qed.

(** X5: only the first seven coefficients of an artifact matter: dropping
    the coefficients after the seventh, or appending zeros, changes no
    response. *)
Theorem coefficients_past_seven_ignored
  (M : Model) (c : list Q) (k : nat) (rnd : Q) (features : TxFeatures) :
  anomaly (Some (Dict (with_coefs M (firstn 7 c)))) rnd features
  = anomaly (Some (Dict (with_coefs M c))) rnd features
  /\ anomaly (Some (Dict (with_coefs M (c ++ repeat 0 k)))) rnd features
     = anomaly (Some (Dict (with_coefs M c))) rnd features.
Proof.
  split; apply anomaly_coefs_congr; intros X HX;
    pose proof (feature_vector_length _ _ HX) as HL;
    rewrite !(align_seven _ _ HL).
  - rewrite !firstn_app, firstn_firstn, !firstn_repeat, length_firstn.
    replace (Nat.min 7 7) with 7%nat by reflexivity.
    f_equal. f_equal. lia.
  - rewrite <- app_assoc, <- repeat_app.
    rewrite !firstn_app, !firstn_repeat. f_equal. f_equal. lia.
Qed.






(** ** The learned branch as a function of the magnitude *)

Lemma learned_normalized_mono (MODEL : option Object) (rnd : Q)
  (X1 X2 : list Q) (p : Pipeline) (r1 r2 : Q) :
  item MODEL pipeline = Some p ->
  magnitude p X1 = Some r1 -> magnitude p X2 = Some r2 -> r1 <= r2 ->
  exists pre1 pre2,
    learned_normalized MODEL rnd X1 = Some pre1 /\
    learned_normalized MODEL rnd X2 = Some pre2 /\
    np.clip pre1 0 1 <= np.clip pre2 0 1.
Proof.
  intros Hp H1 H2 Hr. unfold learned_normalized. rewrite Hp, H1, H2.
  pose proof H1 as Hc. unfold magnitude in Hc.
  destruct (classifier p); [clear Hc | discriminate Hc].
  set (smin := py.get (item MODEL score_min) 0).
  set (smax := py.get (item MODEL score_max) 1).
  case_lt 0 (smax - smin); do 2 eexists;
    (split; [reflexivity|]); (split; [reflexivity|]).
  - apply clip_mono, Qdiv_le_mono; [exact E | lra].
  - rewrite !(clip_unit_inside (np.clip _ 0 1)) by (apply clip_bounds; lra).
    apply clip_mono, Hr.
Qed.

(** X8: with one learned artifact, a request whose anomaly magnitude (minus
    the decision function) is larger never gets a smaller score. *)
Theorem learned_score_monotone
  (MODEL : option Object) (rnd : Q) (f1 f2 : TxFeatures) (X1 X2 : list Q)
  (p : Pipeline) (r1 r2 : Q) :
  serving MODEL = LearnedPipelineStrategy ->
  item MODEL pipeline = Some p ->
  feature_vector f1 = Some X1 ->
  feature_vector f2 = Some X2 ->
  magnitude p X1 = Some r1 ->
  magnitude p X2 = Some r2 ->
  r1 <= r2 ->
  exists s1 s2,
    score_of (anomaly MODEL rnd f1) = Some s1 /\
    score_of (anomaly MODEL rnd f2) = Some s2 /\
    s1 <= s2.
Proof.
  intros Hs Hp F1 F2 H1 H2 Hr.
  destruct (learned_normalized_mono MODEL rnd _ _ p r1 r2 Hp H1 H2 Hr)
    as [pre1 [pre2 [E1 [E2 Hle]]]].
  rewrite (anomaly_learned _ _ _ _ F1 Hs), (anomaly_learned _ _ _ _ F2 Hs).
  unfold learned_branch. rewrite E1, E2. do 2 eexists.
  split; [reflexivity|]. split; [reflexivity|]. apply round_mono, Hle.
Qed.

Lemma learned_score_monotone_witness :
  exists s1 s2,
    score_of (anomaly (Some (Dict (learned_dict by_value))) 0 no_features)
    = Some s1 /\
    score_of (anomaly (Some (Dict (learned_dict by_value))) 0 median_record)
    = Some s2 /\
    s1 <= s2.
Proof.
  apply (learned_score_monotone (Some (Dict (learned_dict by_value))) 0
           no_features median_record zero_vector median_vector
           (pipeline_of by_value) 0 200);
    try reflexivity.
  unfold Qle; simpl; lia.
Defined.

(** X9: with a learned artifact whose range is not degenerate
    (score_min < score_max), a magnitude of at least score_max is returned
    as score 1.0 with label suspicious, and a magnitude of at most score_min
    as score 0.0 with label normal. *)
Theorem learned_saturation
  (MODEL : option Object) (rnd : Q) (features : TxFeatures) (X : list Q)
  (p : Pipeline) (smin smax r : Q) :
  serving MODEL = LearnedPipelineStrategy ->
  item MODEL pipeline = Some p ->
  item MODEL score_min = Some smin ->
  item MODEL score_max = Some smax ->
  smin < smax ->
  feature_vector features = Some X ->
  magnitude p X = Some r ->
  (smax <= r ->
   anomaly MODEL rnd features =
     Some [("score", Number (10000 # 10000)); ("label", Str "suspicious")])
  /\
  (r <= smin ->
   anomaly MODEL rnd features =
     Some [("score", Number (0 # 10000)); ("label", Str "normal")]).
Proof.
  intros Hs Hp Hmin Hmax Hlt HX Hr.
  rewrite (anomaly_learned _ _ _ _ HX Hs).
  unfold learned_branch, learned_normalized.
  rewrite Hp, Hr, Hmin, Hmax. cbn [py.get].
  pose proof Hr as Hc. unfold magnitude in Hc.
  destruct (classifier p); [clear Hc | discriminate Hc].
  assert (Hpos : 0 < smax - smin) by lra.
  pose proof Hpos as Hb. apply Qlt_bool_iff in Hb. rewrite Hb.
  set (pre := (r - smin) / (smax - smin)).
  split; intros H.
  - assert (E : np.clip pre 0 1 == 1).
    { apply clip_unit_high. apply Qle_shift_div_l; [exact Hpos | lra]. }
    rewrite (round_Qeq _ _ 4 E), (Qlt_bool_Qeq _ _ _ E). reflexivity.
  - assert (E : np.clip pre 0 1 == 0).
    { apply clip_unit_low. apply Qle_shift_div_r; [exact Hpos | lra]. }
    rewrite (round_Qeq _ _ 4 E), (Qlt_bool_Qeq _ _ _ E). reflexivity.
Qed.

Lemma learned_saturation_witness :
  anomaly (Some (Dict (learned_dict by_value))) 0 median_record =
    Some [("score", Number (10000 # 10000)); ("label", Str "suspicious")].
Proof.
  pose proof (learned_saturation (Some (Dict (learned_dict by_value))) 0
                median_record median_vector
                (pipeline_of by_value) (- (3 # 10)) (2 # 10) 200
                eq_refl eq_refl eq_refl eq_refl eq_refl eq_refl eq_refl)
    as [H _].
  apply H. unfold Qle; simpl; lia.
Defined.

(** ** The heuristic score as a function of valueUSD *)

(** X10: under the heuristic strategy the response depends on valueUSD only
    through its distance to the median 200: the values 200 + d and 200 - d
    give the same response, the other fields being equal. *)
Theorem heuristic_symmetric_in_valueUSD
  (MODEL : option Object) (rnd : Q) (features : TxFeatures) (d : Q) :
  serving MODEL = HeuristicStrategy ->
  anomaly MODEL rnd (with_valueUSD features (200 + d))
  = anomaly MODEL rnd (with_valueUSD features (200 - d)).
Proof.
  intros Hs.
  destruct (feature_vector features) as [X|] eqn:HX.
  - assert (Fa : feature_vector (with_valueUSD features (200 + d))
                 = Some ((200 + d) :: tl X))
      by (rewrite feature_vector_with_valueUSD, HX; reflexivity).
    assert (Fb : feature_vector (with_valueUSD features (200 - d))
                 = Some ((200 - d) :: tl X))
      by (rewrite feature_vector_with_valueUSD, HX; reflexivity).
    assert (HL : List.length (tl X) = 6%nat).
    { pose proof (feature_vector_length _ _ HX) as HL.
      destruct X; [discriminate HL | cbn in *; lia]. }
    rewrite (anomaly_heuristic _ _ _ _ Fa Hs), (anomaly_heuristic _ _ _ _ Fb Hs).
    apply heuristic_branch_Qeq.
    assert (E : Qabs (200 + d - 200) == Qabs (200 - d - 200)).
    { rewrite <- (Qabs_opp (200 - d - 200)).
      assert (E' : 200 + d - 200 == - (200 - d - 200)) by ring.
      rewrite E'. reflexivity. }
    apply Qle_antisym; apply heuristic_score_by_distance;
      try exact HL; rewrite E; apply Qle_refl.
  - rewrite !anomaly_rejected;
      [reflexivity | | ]; rewrite feature_vector_with_valueUSD, HX;
      reflexivity.
Qed.

Lemma heuristic_symmetric_in_valueUSD_witness :
  anomaly None 0 (with_valueUSD median_record (200 + 900))
  = anomaly None 0 (with_valueUSD median_record (200 - 900)).
Proof.
  apply (heuristic_symmetric_in_valueUSD None 0 median_record 900).
  reflexivity.
Defined.

(** X11: under the heuristic strategy, on requests the vectoriser accepts,
    the returned score never decreases when valueUSD moves away from the
    median 200, in either direction, the other fields being equal; below the
    median it therefore falls as valueUSD rises. *)
Theorem heuristic_monotone_in_distance
  (MODEL : option Object) (rnd : Q) (features : TxFeatures) (X : list Q)
  (a b : Q) :
  serving MODEL = HeuristicStrategy ->
  feature_vector features = Some X ->
  Qabs (a - 200) <= Qabs (b - 200) ->
  exists sa sb,
    score_of (anomaly MODEL rnd (with_valueUSD features a)) = Some sa /\
    score_of (anomaly MODEL rnd (with_valueUSD features b)) = Some sb /\
    sa <= sb.
Proof.
  intros Hs HX Hab.
  assert (Fa : feature_vector (with_valueUSD features a) = Some (a :: tl X))
    by (rewrite feature_vector_with_valueUSD, HX; reflexivity).
  assert (Fb : feature_vector (with_valueUSD features b) = Some (b :: tl X))
    by (rewrite feature_vector_with_valueUSD, HX; reflexivity).
  assert (HL : List.length (tl X) = 6%nat).
  { pose proof (feature_vector_length _ _ HX) as HL.
    destruct X; [discriminate HL | cbn in *; lia]. }
  rewrite (anomaly_heuristic _ _ _ _ Fa Hs), (anomaly_heuristic _ _ _ _ Fb Hs).
  rewrite !heuristic_branch_score. do 2 eexists.
  split; [reflexivity|]. split; [reflexivity|].
  apply round_mono, heuristic_score_by_distance; assumption.
Qed.

Lemma heuristic_monotone_in_distance_witness :
  exists sa sb,
    score_of (anomaly None 0 (with_valueUSD median_record 150)) = Some sa /\
    score_of (anomaly None 0 (with_valueUSD median_record (- (40)))) = Some sb /\
    sa <= sb.
Proof.
  apply (heuristic_monotone_in_distance None 0 median_record median_vector
           150 (- (40))).
  - reflexivity.
  - reflexivity.
  - unfold Qle; simpl; lia.
Defined.



(** X13: when every component of the vector lies within three standard
    deviations of its median, the final clip of the heuristic branch changes
    nothing: the score is zsum / norm, which is at most 1. *)
Theorem heuristic_unclipped_within_three_std (Xv : list Q) :
  Forall2 (fun x ms => Qabs (x - fst ms) <= 3 * snd ms)
          Xv (combine medians stds) ->
  heuristic_score Xv = fst (heuristic_sums Xv) / snd (heuristic_sums Xv)
  /\ 0 <= heuristic_score Xv <= 1.
Proof.
  intros H. unfold medians, stds in H. cbn [combine] in H.
  repeat match goal with
         | H : Forall2 _ _ (_ :: _) |- _ => inversion H; clear H; subst
         | H : Forall2 _ _ [] |- _ => inversion H; clear H; subst
         end.
  cbn [fst snd] in *.
  rewrite heuristic_score_7 by reflexivity.
  rewrite heuristic_sums_7. cbn [fst snd].
  assert (Hz : forall x m s, 0 < s -> Qabs (x - m) <= 3 * s ->
                             0 <= py.abs ((x - m) / s) <= 3).
  { intros u m s Hs Hx. split; [apply Qabs_nonneg|].
    rewrite z_term_abs by exact Hs.
    apply Qle_shift_div_r; [exact Hs | exact Hx]. }
  repeat match goal with
         | H : Qabs (?x - ?m) <= 3 * ?s |- _ =>
             apply (Hz x m s eq_refl) in H
         end.
  clear Hz.
  match goal with
  | |- np.clip ?q 0 1 = ?q /\ _ =>
      assert (Hq : 0 <= q <= 1);
      [|rewrite (clip_unit_inside q Hq); split; [reflexivity | exact Hq]]
  end.
  unfold py.abs in *.
  repeat match goal with
         | H : 0 <= Qabs ?e <= 3 |- _ =>
             let t := fresh "t" in set (t := Qabs e) in *; clearbody t
         end.
  split.
  - apply Qdiv_nonneg; [exact cap_positive | lra].
  - apply Qle_shift_div_r; [exact cap_positive | unfold cap; lra].
Qed.

Lemma heuristic_unclipped_within_three_std_witness :
  heuristic_score median_vector
  = fst (heuristic_sums median_vector) / snd (heuristic_sums median_vector)
  /\ 0 <= heuristic_score median_vector <= 1.
Proof.
  apply (heuristic_unclipped_within_three_std median_vector).
  repeat constructor; cbn; unfold Qle; simpl; lia.
Defined.

(** ** What the integer fields exclude *)





(** ** The artifact that training writes *)

Lemma fold_minimum_spec (l : list Q) :
  forall a,
    fold_left np.minimum l a <= a /\
    Forall (fun y => fold_left np.minimum l a <= y) l.
Proof.
  induction l as [|y l IH]; intros a; cbn [fold_left].
  - split; [apply Qle_refl | constructor].
  - destruct (IH (np.minimum a y)) as [H1 H2].
    assert (Hm : np.minimum a y <= a /\ np.minimum a y <= y).
    { unfold np.minimum. case_lt y a; split; lra. }
    destruct Hm as [Ha Hy]. split; [lra|].
    constructor; [lra | exact H2].
Qed.

Lemma fold_maximum_spec (l : list Q) :
  forall a,
    a <= fold_left np.maximum l a /\
    Forall (fun y => y <= fold_left np.maximum l a) l.
Proof.
  induction l as [|y l IH]; intros a; cbn [fold_left].
  - split; [apply Qle_refl | constructor].
  - destruct (IH (np.maximum a y)) as [H1 H2].
    assert (Hm : a <= np.maximum a y /\ y <= np.maximum a y).
    { unfold np.maximum. case_lt a y; split; lra. }
    destruct Hm as [Ha Hy]. split; [lra|].
    constructor; [lra | exact H2].
Qed.

(** X17: the artifact built by train_and_save from a non-empty array of
    training magnitudes has score_min <= score_max bracketing every training
    magnitude, is served by the learned pipeline branch once loaded, and
    normalises any request whose magnitude equals a training magnitude into
    [0, 1] before the final clip. *)
Theorem trained_artifact_is_served
  (p : Pipeline) (scores : list Q) (M : Model) :
  model_obj p scores = Some M ->
  (exists smin smax,
      score_min M = Some smin /\ score_max M = Some smax /\
      smin <= smax /\ Forall (fun r => smin <= r <= smax) scores)
  /\ (forall precomputed,
        serving (load_MODEL (Holds (Dict M)) precomputed)
        = LearnedPipelineStrategy)
  /\ (forall rnd X r,
        magnitude p X = Some r -> In r scores ->
        exists pre,
          learned_normalized (Some (Dict M)) rnd X = Some pre /\
          0 <= pre <= 1).
Proof.
  intros H. unfold model_obj in H.
  destruct scores as [|x scores]; [discriminate H|].
  cbn [array_min array_max] in H. injection H as <-.
  destruct (fold_minimum_spec scores x) as [Hmin1 Hmin2].
  destruct (fold_maximum_spec scores x) as [Hmax1 Hmax2].
  set (smin := fold_left np.minimum scores x) in *.
  set (smax := fold_left np.maximum scores x) in *.
  assert (Hall : Forall (fun r => smin <= r <= smax) (x :: scores)).
  { constructor; [split; assumption|].
    rewrite Forall_forall in *. intros r Hr. split; auto. }
  split; [|split].
  - exists smin, smax. cbn. repeat split; try assumption. lra.
  - intros precomputed. reflexivity.
  - intros rnd X r Hr Hin.
    rewrite Forall_forall in Hall. destruct (Hall r Hin) as [Hlo Hhi].
    unfold learned_normalized. cbn [item pipeline score_min score_max py.get].
    rewrite Hr. pose proof Hr as Hc. unfold magnitude in Hc.
    destruct (classifier p); [clear Hc | discriminate Hc].
    case_lt 0 (smax - smin); eexists; (split; [reflexivity|]).
    + split.
      * apply Qdiv_nonneg; [exact E | lra].
      * apply Qle_shift_div_r; [exact E | lra].
    + apply clip_bounds. lra.
Qed.

Lemma trained_artifact_is_served_witness :
  exists M,
    model_obj (pipeline_of by_value) [3; 1; 2] = Some M /\
    serving (load_MODEL (Holds (Dict M)) Missing) = LearnedPipelineStrategy.
Proof.
  eexists. split; [reflexivity|].
  apply (trained_artifact_is_served (pipeline_of by_value) [3; 1; 2] _ eq_refl).
Defined.

(** ** The heuristic score and the distances to the medians *)

(** X19: the heuristic score is monotone in the distance of every component
    to its median: a vector that is, component by component, at least as
    far from the medians as another one never gets a smaller score. *)
Theorem heuristic_monotone_in_every_distance (X Y : list Q) :
  Forall2 (fun xy m => Qabs (fst xy - m) <= Qabs (snd xy - m))
          (combine X Y) medians ->
  List.length X = 7%nat -> List.length Y = 7%nat ->
  exists sx sy,
    score_of (heuristic_branch X) = Some sx /\
    score_of (heuristic_branch Y) = Some sy /\
    sx <= sy.
Proof.
  intros H HX HY. rewrite !heuristic_branch_score. do 2 eexists.
  split; [reflexivity|]. split; [reflexivity|]. apply round_mono.
  rewrite (heuristic_score_7 _ HX), (heuristic_score_7 _ HY).
  seven X HX. seven Y HY. unfold medians in H. cbn [combine] in H.
  repeat match goal with
         | H : Forall2 _ (_ :: _) (_ :: _) |- _ => inversion H; clear H; subst
         | H : Forall2 _ [] [] |- _ => clear H
         end.
  cbn [fst snd] in *.
  rewrite !heuristic_sums_7. cbn [fst].
  apply clip_mono, Qdiv_le_mono; [exact cap_positive|].
  assert (Hz : forall u v m s, 0 < s -> Qabs (u - m) <= Qabs (v - m) ->
                               py.abs ((u - m) / s) <= py.abs ((v - m) / s)).
  { intros u v m s Hs Huv. rewrite !z_term_abs by exact Hs.
    apply Qdiv_le_mono; assumption. }
  repeat match goal with
         | H : Qabs (?u - ?m) <= Qabs (?v - ?m) |- _ =>
             match goal with
             | |- context [py.abs ((u - m) / ?s)] =>
                 apply (Hz u v m s eq_refl) in H
             end
         end.
  clear Hz. unfold py.abs in *.
  repeat match goal with
         | |- context [Qabs ?e] =>
             let t := fresh "t" in set (t := Qabs e) in *; clearbody t
         end.
  lra.
Qed.

Lemma heuristic_monotone_in_every_distance_witness :
  exists sx sy,
    score_of (heuristic_branch median_vector) = Some sx /\
    score_of (heuristic_branch zero_vector) = Some sy /\
    sx <= sy.
Proof.
  apply (heuristic_monotone_in_every_distance median_vector zero_vector).
  - repeat constructor; cbn; unfold Qle; simpl; lia.
  - reflexivity.
  - reflexivity.
Defined.

(** ** Which requests the vectoriser accepts *)

Lemma float_of_int_overflow (z : Z) :
  py.float_of_int z = None <-> (2 ^ 1024 - 2 ^ 970 <= Z.abs z)%Z.
Proof.
  unfold py.float_of_int.
  pose proof (nearest_binary64_overflow (Z.abs z) (Z.abs_nonneg z)) as H.
  destruct (Z.leb_spec (2 ^ 1024) (py.nearest_binary64 (Z.abs z))) as [H'|H'].
  - split; [intros _; apply H, H' | reflexivity].
  - split; [discriminate|]. intros Hz. apply H in Hz. lia.
Qed.

Lemma filled_int_overflow (field : option Z) :
  filled (option_map py.Int field) = None <->
  exists z, field = Some z /\ (2 ^ 1024 - 2 ^ 970 <= Z.abs z)%Z.
Proof.
  destruct field as [z|]; cbn [option_map filled py.float].
  - rewrite float_of_int_overflow. split.
    + intros H. exists z. split; [reflexivity | exact H].
    + intros [z' [E H]]. injection E as <-. exact H.
  - split; [discriminate|]. intros [z [E _]]. discriminate E.
Qed.

Lemma filled_int_exact (field : option Z) (x : Q) :
  filled (option_map py.Int field) = Some x ->
  (field = None -> x = 0) /\
  (forall z, field = Some z -> (Z.abs z < 2 ^ 53)%Z -> x = inject_Z z).
Proof.
  destruct field as [z|]; cbn [option_map filled py.float]; intros H.
  - split; [discriminate|]. intros z' E Hz. injection E as <-.
    rewrite (float_of_int_exact z Hz) in H. injection H as <-. reflexivity.
  - injection H as <-. split; [reflexivity|]. intros z E. discriminate E.
Qed.

(** X20: when the two integer fields convert to floats, the vectoriser
    returns seven numbers in the order valueUSD, relativeValue, timeDelta,
    txCount24h, gasUsed, gasPriceGwei, isNewCounterparty, an absent field
    giving 0.0 and an integer below 2 ** 53 in magnitude giving itself. *)
Theorem vectoriser_fixed_order (features : TxFeatures) (count new : Q) :
  filled (option_map py.Int (txCount24h features)) = Some count ->
  filled (option_map py.Int (isNewCounterparty features)) = Some new ->
  feature_vector features =
    Some [py.get (valueUSD features) 0;
          py.get (relativeValue features) 0;
          py.get (timeDelta features) 0;
          count;
          py.get (gasUsed features) 0;
          py.get (gasPriceGwei features) 0;
          new]
  /\ (txCount24h features = None -> count = 0)
  /\ (forall z, txCount24h features = Some z -> (Z.abs z < 2 ^ 53)%Z ->
                count = inject_Z z)
  /\ (isNewCounterparty features = None -> new = 0)
  /\ (forall z, isNewCounterparty features = Some z -> (Z.abs z < 2 ^ 53)%Z ->
                new = inject_Z z).
Proof.
  intros Hc Hn.
  destruct (filled_int_exact _ _ Hc) as [C0 C1].
  destruct (filled_int_exact _ _ Hn) as [N0 N1].
  split; [|repeat split; assumption].
  rewrite feature_vector_equation, Hc, Hn. reflexivity.
Qed.

Lemma vectoriser_fixed_order_witness :
  feature_vector median_record = Some [200; 1; 3600; 2; 50000; 30; 0].
Proof.
  apply (vectoriser_fixed_order median_record 2 0); reflexivity.
Defined.

(** X21: the vectoriser raises exactly on the requests with an integer
    field (txCount24h or isNewCounterparty) of magnitude at least
    2 ** 1024 - 2 ** 970, the integers whose nearest binary64 value is not
    finite; every other request gets a vector. *)
Theorem vectoriser_rejects_large_integers (features : TxFeatures) :
  feature_vector features = None <->
  (exists z, txCount24h features = Some z /\
             (2 ^ 1024 - 2 ^ 970 <= Z.abs z)%Z)
  \/ (exists z, isNewCounterparty features = Some z /\
                (2 ^ 1024 - 2 ^ 970 <= Z.abs z)%Z).
Proof.
  rewrite <- !filled_int_overflow, feature_vector_equation.
  destruct (filled (option_map py.Int (txCount24h features)));
    destruct (filled (option_map py.Int (isNewCounterparty features)));
    split; intros H; try discriminate H; auto;
    destruct H as [H|H]; discriminate H.
Qed.
